(** * Impact calculations service: a shallow embedding and its properties

    Source: [project/src/services/impactCalculations.ts].

    ECMAScript numbers are modelled by the real numbers: every arithmetic
    operation is exact, and the values NaN, +Infinity and -Infinity have no
    counterpart.  Each [Math] function below says where it agrees with its
    ECMAScript namesake; the numeric properties are proved on arguments
    where it does.  [Math.random] reads the next sample of an explicit
    random source, so the number of draws of a call is the distance the
    cursor of the source moved. *)

From Stdlib Require Import Reals Lra Lia ZArith Bool String.

Open Scope R_scope.

(** ** ECMAScript numbers, [Math], completions and the random source *)

Module JS.

Abbreviation number := R (only parsing).

(** [x < y] and [x > y] as the booleans an [if] tests. *)
Definition ltb (x y : number) : bool := if Rlt_dec x y then true else false.
Definition gtb (x y : number) : bool := ltb y x.

Definition Math_PI : number := PI.
Definition Math_abs (x : number) : number := Rabs x.
Definition Math_max (x y : number) : number := Rmax x y.
Definition Math_min (x y : number) : number := Rmin x y.
Definition Math_sin (x : number) : number := sin x.

(** [Math.log10 x] for [0 < x].  ECMAScript returns -Infinity at [0] and
    NaN below; the model returns [0] there (the value of [ln]). *)
Definition Math_log10 (x : number) : number := ln x / ln 10.

(** [Math.round x]: the nearest integer, halves rounded towards
    +Infinity, that is the floor of [x + 0.5]. *)
Definition Math_round (x : number) : number := IZR (Int_part (x + 0.5)).

Definition is_integer (y : number) : bool :=
  if Req_dec_T y (IZR (Int_part y)) then true else false.

(** [Math.pow x y].  A positive base is [exp (y * ln x)]; a zero base
    with a positive exponent is [0]; a negative base with an integer
    exponent takes the sign of the exponent's parity.  ECMAScript returns
    +Infinity for a zero base with a negative exponent and NaN for a
    negative base with a fractional exponent; the model returns [0] in
    these two cases. *)
Definition Math_pow (x y : number) : number :=
  if Req_dec_T y 0 then 1
  else if Rlt_dec 0 x then Rpower x y
  else if Req_dec_T x 0 then 0
  else if is_integer y then
    (if Z.even (Int_part y) then Rpower (- x) y else - Rpower (- x) y)
  else 0.

(** How the evaluation of a function body ends: with a value, or with a
    thrown exception (for an [async] function: a fulfilled or a rejected
    promise). *)
Inductive completion (A : Type) : Type :=
| Returned (a : A)
| Thrown (message : string).
Arguments Returned {A} a.
Arguments Thrown {A} message.

(** The uniform random source behind [Math.random]: an infinite sequence
    of samples and the index of the next one. *)
Record RandomSource : Type := mkSource {
  samples : nat -> number;
  cursor : nat
}.

Definition advance (s : RandomSource) : RandomSource :=
  mkSource (samples s) (S (cursor s)).

(** The samples of a uniform source lie in [[0, 1)]. *)
Definition uniform (s : RandomSource) : Prop :=
  forall n, 0 <= samples s n < 1.

(** Computations that may draw random values and may throw. *)
Definition Eff (A : Type) : Type := RandomSource -> completion A * RandomSource.

Definition ret {A} (a : A) : Eff A := fun s => (Returned a, s).

Definition bind {A B} (m : Eff A) (k : A -> Eff B) : Eff B :=
  fun s =>
    match m s with
    | (Returned a, s') => k a s'
    | (Thrown e, s') => (Thrown e, s')
    end.

Definition Math_random : Eff number :=
  fun s => (Returned (samples s (cursor s)), advance s).

(** Number of samples consumed between two states of the source. *)
Definition draws (before after : RandomSource) : nat :=
  (cursor after - cursor before)%nat.

End JS.

Import JS.

Declare Scope js_scope.
Delimit Scope js_scope with js.
Notation "x <? y" := (ltb x y) (at level 70, no associativity) : js_scope.
Notation "x >? y" := (gtb x y) (at level 70, no associativity) : js_scope.
Notation "x <- m ;; k" := (bind m (fun x => k))
  (at level 61, m at next level, right associativity) : js_scope.
Open Scope js_scope.

(** ** The service *)

Definition ASTEROID_DENSITY : number := 2000.
Definition TNT_ENERGY : number := 4.184e12.
Definition EARTH_OCEAN_COVERAGE : number := 0.71.

Module AsteroidData.
Record t : Type := mk {
  diameter : number;
  velocity : number;
  angle : number;
  impactLat : number;
  impactLon : number
}.
End AsteroidData.

Module ImpactResults.
Record t : Type := mk {
  mass : number;
  energy : number;
  craterDiameter : number;
  craterDepth : number;
  shockwaveRadius : number;
  seismicMagnitude : number;
  thermalRadius : number;
  isOceanImpact : bool;
  tsunamiHeight : option number;
  affectedPopulation : number
}.

(** [results.tsunamiHeight = h] *)
Definition set_tsunamiHeight (h : number) (r : t) : t :=
  mk (mass r) (energy r) (craterDiameter r) (craterDepth r)
     (shockwaveRadius r) (seismicMagnitude r) (thermalRadius r)
     (isOceanImpact r) (Some h) (affectedPopulation r).
End ImpactResults.

Definition calculateMass (diameter : number) : number :=
  let radius := diameter / 2 in
  let volume := (4 / 3) * Math_PI * Math_pow radius 3 in
  volume * ASTEROID_DENSITY.

Definition calculateEnergy (mass velocity : number) : number :=
  let velocityMs := velocity * 1000 in
  let energyJoules := 0.5 * mass * Math_pow velocityMs 2 in
  let energyMegatons := energyJoules / TNT_ENERGY in
  energyMegatons.

Definition calculateCraterDiameter
    (energy _velocity angle : number) (isOcean : bool) : number :=
  let angleRadians := (angle * Math_PI) / 180 in
  let angleEfficiency := Math_pow (Math_sin angleRadians) 0.3 in
  let terrainFactor := if isOcean then 0.7 else 1.0 in
  let scalingConstant := 0.8 in
  let diameterKm :=
    scalingConstant * Math_pow energy 0.33 * angleEfficiency * terrainFactor in
  Math_max 0.1 diameterKm.

Definition calculateCraterDepth (diameter : number) : number :=
  diameter / 4.

Definition calculateShockwaveRadius (energy : number) : number :=
  Math_pow energy 0.33 * 2.5.

Definition calculateThermalRadius (energy : number) : number :=
  Math_pow energy 0.41 * 3.2.

Definition calculateSeismicMagnitude (energy : number) : number :=
  let energyJoules := energy * 1e6 * TNT_ENERGY in
  (2 / 3) * Math_log10 energyJoules - 2.9.

Definition isOceanImpact (lat lon : number) : Eff bool :=
  if ((lon >? 120) || (lon <? -70)) && (Math_abs lat <? 60) then ret true
  else if (lon >? -70) && (lon <? -10) && (Math_abs lat <? 60) then ret true
  else if (lon >? 40) && (lon <? 120) && (lat <? 20) && (lat >? -50) then ret true
  else
    r <- Math_random ;;
    ret (r <? EARTH_OCEAN_COVERAGE).

(** The third parameter is optional in the source and defaults to 4000. *)
Definition calculateTsunamiHeight
    (energy craterDiameter : number) (waterDepth : option number) : number :=
  let waterDepth := match waterDepth with Some d => d | None => 4000 end in
  let energyFactor := Math_pow energy 0.25 in
  let craterFactor := craterDiameter * 1000 in
  let initialHeight := Math_min (craterFactor / 10) (waterDepth * 0.5) in
  initialHeight * energyFactor * 0.1.

Definition getPopulationDensity (lat lon : number) : Eff number :=
  let baseDensity : number := 50 in
  let absLat := Math_abs lat in
  let baseDensity : number :=
    if absLat <? 30 then 200
    else if absLat <? 50 then 150
    else if absLat <? 70 then 20
    else 1 in
  let baseDensity :=
    if (lon >? -180) && (lon <? -50) then baseDensity * 0.8
    else if (lon >? -50) && (lon <? 50) then baseDensity * 1.2
    else if (lon >? 50) && (lon <? 150) then baseDensity * 1.5
    else baseDensity * 0.3 in
  r <- Math_random ;;
  let variation := 0.5 + r in
  ret (Math_max 1 (baseDensity * variation)).

Definition estimateAffectedPopulation
    (lat lon shockwaveRadius thermalRadius : number) : Eff number :=
  density <- getPopulationDensity lat lon ;;
  let affectedArea :=
    Math_PI * Math_pow (Math_max shockwaveRadius thermalRadius) 2 in
  ret (Math_round (density * affectedArea)).

Definition calculateImpact (data : AsteroidData.t) : Eff ImpactResults.t :=
  let mass := calculateMass (AsteroidData.diameter data) in
  let energy := calculateEnergy mass (AsteroidData.velocity data) in
  isOcean <- isOceanImpact (AsteroidData.impactLat data)
                           (AsteroidData.impactLon data) ;;
  let craterDiameter :=
    calculateCraterDiameter energy (AsteroidData.velocity data)
                            (AsteroidData.angle data) isOcean in
  let craterDepth := calculateCraterDepth craterDiameter in
  let shockwaveRadius := calculateShockwaveRadius energy in
  let thermalRadius := calculateThermalRadius energy in
  let seismicMagnitude := calculateSeismicMagnitude energy in
  affectedPopulation <-
    estimateAffectedPopulation (AsteroidData.impactLat data)
                               (AsteroidData.impactLon data)
                               shockwaveRadius thermalRadius ;;
  let results :=
    ImpactResults.mk mass energy craterDiameter craterDepth shockwaveRadius
                     seismicMagnitude thermalRadius isOcean None
                     affectedPopulation in
  ret (if isOcean
       then ImpactResults.set_tsunamiHeight
              (calculateTsunamiHeight energy craterDiameter None) results
       else results).

(** ** Vocabulary of the specification *)

(** The documented input domain of [calculateImpact]. *)
Definition valid_input (data : AsteroidData.t) : Prop :=
  0 < AsteroidData.diameter data /\
  0 < AsteroidData.velocity data /\
  0 < AsteroidData.angle data <= 90.

(** The three ocean bounding boxes tested by [isOceanImpact]. *)
Definition pacificBox (lat lon : number) : bool :=
  ((lon >? 120) || (lon <? -70)) && (Math_abs lat <? 60).
Definition atlanticBox (lat lon : number) : bool :=
  (lon >? -70) && (lon <? -10) && (Math_abs lat <? 60).
Definition indianBox (lat lon : number) : bool :=
  (lon >? 40) && (lon <? 120) && (lat <? 20) && (lat >? -50).
Definition inOceanBox (lat lon : number) : bool :=
  pacificBox lat lon || atlanticBox lat lon || indianBox lat lon.

(** The ocean flag [isOceanImpact] answers at a point, given the source it
    may draw from. *)
Definition oceanDecision (lat lon : number) (s : RandomSource) : bool :=
  if inOceanBox lat lon then true
  else (samples s (cursor s) <? EARTH_OCEAN_COVERAGE).

(** The source after [isOceanImpact]: untouched inside a box, one sample
    further outside. *)
Definition afterOceanDecision (lat lon : number) (s : RandomSource) : RandomSource :=
  if inOceanBox lat lon then s else advance s.

(** [x ^ y] for a base [0 <= x] and an exponent [0 < y], as mathematics
    has it: [0] at [x = 0], [exp (y * ln x)] otherwise. *)
Definition power_nonneg (x y : R) : R :=
  if Req_dec_T x 0 then 0 else Rpower x y.

(** The crater diameter as the specification words it:
    [max(0.1, k * E^0.33 * sin(angle in radians)^0.3 * terrain)] with
    [k = 0.8], terrain [0.7] for ocean and [1.0] for land. *)
Definition specCraterDiameterKm (E a : R) (ocean : bool) : R :=
  Rmax 0.1 (0.8 * power_nonneg E 0.33
                * power_nonneg (sin (a * PI / 180)) 0.3
                * (if ocean then 0.7 else 1.0)).

(** A source whose every sample is [x]. *)
Definition constant_source (x : number) : RandomSource := mkSource (fun _ => x) 0.

(** A valid input whose impact point lies in the Pacific box. *)
Definition mid_pacific : AsteroidData.t := AsteroidData.mk 500 20 45 0 150.

(** An exactly horizontal impact: angle [0], every other field in range. *)
Definition grazing : AsteroidData.t := AsteroidData.mk 500 20 0 0 150.

(** Decide every comparison in sight from the real-arithmetic context. *)
Ltac compare_numbers :=
  unfold gtb, ltb;
  repeat match goal with
         | |- context [Rlt_dec ?x ?y] => destruct (Rlt_dec x y); try lra
         end.

(** ** Facts about the number model *)

Lemma ltb_true_iff (x y : number) : (x <? y) = true <-> x < y.
Proof. unfold ltb; destruct (Rlt_dec x y); split; intros; congruence || lra. Qed.

Lemma ltb_false_iff (x y : number) : (x <? y) = false <-> y <= x.
Proof. unfold ltb; destruct (Rlt_dec x y); split; intros; congruence || lra. Qed.

Lemma constant_source_uniform (x : number) :
  0 <= x < 1 -> uniform (constant_source x).
Proof. intros Hx n. exact Hx. Qed.

Lemma Int_part_IZR (z : Z) : Int_part (IZR z) = z.
Proof. symmetry; apply Int_part_spec; lra. Qed.

Lemma is_integer_IZR (z : Z) : is_integer (IZR z) = true.
Proof.
  unfold is_integer. rewrite Int_part_IZR.
  destruct (Req_dec_T (IZR z) (IZR z)); congruence.
Qed.

Lemma Rpower_2 (x : R) : 0 < x -> Rpower x 2 = x * x.
Proof.
  intros Hx. replace 2 with (INR 2) by (simpl; lra).
  rewrite Rpower_pow by assumption. simpl; ring.
Qed.

Lemma Rpower_3 (x : R) : 0 < x -> Rpower x 3 = x * x * x.
Proof.
  intros Hx. replace 3 with (INR 3) by (simpl; lra).
  rewrite Rpower_pow by assumption. simpl; ring.
Qed.

Lemma Math_pow_2 (x : number) : Math_pow x 2 = x * x.
Proof.
  unfold Math_pow.
  destruct (Req_dec_T 2 0) as [H|_]; [lra|].
  destruct (Rlt_dec 0 x) as [Hpos|Hnpos]; [now apply Rpower_2|].
  destruct (Req_dec_T x 0) as [->|Hnz]; [ring|].
  rewrite (is_integer_IZR 2), (Int_part_IZR 2). simpl.
  rewrite Rpower_2 by lra. ring.
Qed.

Lemma Math_pow_3 (x : number) : Math_pow x 3 = x * x * x.
Proof.
  unfold Math_pow.
  destruct (Req_dec_T 3 0) as [H|_]; [lra|].
  destruct (Rlt_dec 0 x) as [Hpos|Hnpos]; [now apply Rpower_3|].
  destruct (Req_dec_T x 0) as [->|Hnz]; [ring|].
  rewrite (is_integer_IZR 3), (Int_part_IZR 3). simpl.
  rewrite Rpower_3 by lra. ring.
Qed.

Lemma Math_pow_power_nonneg (x y : number) :
  0 <= x -> 0 < y -> Math_pow x y = power_nonneg x y.
Proof.
  intros Hx Hy. unfold Math_pow, power_nonneg.
  destruct (Req_dec_T y 0) as [H|_]; [lra|].
  destruct (Rlt_dec 0 x) as [Hpos|Hnpos].
  - destruct (Req_dec_T x 0); [lra|reflexivity].
  - destruct (Req_dec_T x 0); [reflexivity|lra].
Qed.

Lemma ln_10_pos : 0 < ln 10.
Proof. rewrite <- ln_1. apply ln_increasing; lra. Qed.

Lemma Math_log10_pow10 (n : nat) : Math_log10 (10 ^ n) = INR n.
Proof.
  unfold Math_log10. rewrite ln_pow by lra.
  field. pose proof ln_10_pos; lra.
Qed.

Lemma Math_log10_mult (x y : number) :
  0 < x -> 0 < y -> Math_log10 (x * y) = Math_log10 x + Math_log10 y.
Proof.
  intros Hx Hy. unfold Math_log10. rewrite ln_mult by assumption.
  field. pose proof ln_10_pos; lra.
Qed.

Lemma PI_bounds : 3 < PI <= 4.
Proof. split; [pose proof PI2_3_2; lra | exact PI_4]. Qed.

(** ** What the energy and seismic stages compute *)

(** The energy stage divides the kinetic energy in joules by [TNT_ENERGY]. *)
Lemma calculateEnergy_joules (m v : number) :
  calculateEnergy m v * TNT_ENERGY = 0.5 * m * (1000 * v) ^ 2.
Proof.
  unfold calculateEnergy, TNT_ENERGY. rewrite Math_pow_2. lra.
Qed.

(** The seismic stage multiplies its argument by [1e6 * TNT_ENERGY], so after
    the energy stage it sees a million times the kinetic energy. *)
Lemma seismic_energyJoules (m v : number) :
  calculateEnergy m v * 1e6 * TNT_ENERGY = 1e6 * (0.5 * m * (1000 * v) ^ 2).
Proof.
  unfold calculateEnergy, TNT_ENERGY. rewrite Math_pow_2. lra.
Qed.

(** Hence the magnitude of a computed energy is four units above the
    magnitude of the kinetic energy itself. *)
Lemma calculateSeismicMagnitude_of_energy (m v : number) :
  0 < m -> 0 < v ->
  calculateSeismicMagnitude (calculateEnergy m v) =
  (2 / 3) * Math_log10 (0.5 * m * (1000 * v) ^ 2) - 2.9 + 4.
Proof.
  intros Hm Hv. unfold calculateSeismicMagnitude.
  rewrite seismic_energyJoules.
  assert (Hsq : 0 < (1000 * v) ^ 2) by (apply pow_lt; lra).
  assert (Hke : 0 < 0.5 * m * (1000 * v) ^ 2)
    by (apply Rmult_lt_0_compat; [lra | assumption]).
  rewrite Math_log10_mult by lra.
  replace 1e6 with (10 ^ 6) by lra.
  rewrite Math_log10_pow10. simpl. lra.
Qed.

Lemma calculateMass_cube (d : number) :
  calculateMass d = PI * d ^ 3 * (1000 / 3).
Proof.
  unfold calculateMass, ASTEROID_DENSITY, Math_PI. rewrite Math_pow_3. field.
Qed.

(** ** Running the effectful functions *)

Lemma isOceanImpact_in_box (lat lon : number) (s : RandomSource) :
  inOceanBox lat lon = true ->
  isOceanImpact lat lon s = (Returned true, s).
Proof.
  unfold inOceanBox, pacificBox, atlanticBox, indianBox, isOceanImpact.
  intros H.
  destruct (((lon >? 120) || (lon <? -70)) && (Math_abs lat <? 60)); [reflexivity|].
  destruct ((lon >? -70) && (lon <? -10) && (Math_abs lat <? 60)); [reflexivity|].
  destruct ((lon >? 40) && (lon <? 120) && (lat <? 20) && (lat >? -50)); [reflexivity|].
  discriminate H.
Qed.

Lemma isOceanImpact_fallback (lat lon : number) (s : RandomSource) :
  inOceanBox lat lon = false ->
  isOceanImpact lat lon s =
  (Returned (samples s (cursor s) <? EARTH_OCEAN_COVERAGE), advance s).
Proof.
  unfold inOceanBox, pacificBox, atlanticBox, indianBox, isOceanImpact.
  intros H.
  destruct (((lon >? 120) || (lon <? -70)) && (Math_abs lat <? 60)); [discriminate H|].
  destruct ((lon >? -70) && (lon <? -10) && (Math_abs lat <? 60)); [discriminate H|].
  destruct ((lon >? 40) && (lon <? 120) && (lat <? 20) && (lat >? -50)); [discriminate H|].
  reflexivity.
Qed.

(** [isOceanImpact] always returns; it draws exactly when no box matches. *)
Lemma isOceanImpact_run (lat lon : number) (s : RandomSource) :
  isOceanImpact lat lon s =
  (Returned (oceanDecision lat lon s), afterOceanDecision lat lon s).
Proof.
  unfold oceanDecision, afterOceanDecision.
  destruct (inOceanBox lat lon) eqn:Hbox.
  - now apply isOceanImpact_in_box.
  - now apply isOceanImpact_fallback.
Qed.

(** [getPopulationDensity] always returns and draws exactly once. *)
Lemma getPopulationDensity_run (lat lon : number) (s : RandomSource) :
  exists d, getPopulationDensity lat lon s = (Returned d, advance s).
Proof. unfold getPopulationDensity, bind, Math_random, ret. eexists; reflexivity. Qed.

Lemma estimateAffectedPopulation_run
    (lat lon shock thermal : number) (s : RandomSource) :
  exists p,
    estimateAffectedPopulation lat lon shock thermal s = (Returned p, advance s).
Proof.
  unfold estimateAffectedPopulation, bind.
  destruct (getPopulationDensity_run lat lon s) as [d ->].
  unfold ret. eexists; reflexivity.
Qed.

Section CalculateImpactRun.

Variable data : AsteroidData.t.
Variable s : RandomSource.

(** The record [calculateImpact] builds and the state it leaves the random
    source in; only the population estimate is left unnamed. *)
Lemma calculateImpact_run :
  let lat := AsteroidData.impactLat data in
  let lon := AsteroidData.impactLon data in
  let mass := calculateMass (AsteroidData.diameter data) in
  let energy := calculateEnergy mass (AsteroidData.velocity data) in
  let isOcean := oceanDecision lat lon s in
  let crater :=
    calculateCraterDiameter energy (AsteroidData.velocity data)
                            (AsteroidData.angle data) isOcean in
  exists population : number,
    calculateImpact data s =
    (Returned
       (ImpactResults.mk mass energy crater (calculateCraterDepth crater)
          (calculateShockwaveRadius energy) (calculateSeismicMagnitude energy)
          (calculateThermalRadius energy) isOcean
          (if isOcean
           then Some (calculateTsunamiHeight energy crater None)
           else None)
          population),
     advance (afterOceanDecision lat lon s)).
Proof.
  intros lat lon mass energy isOcean crater.
  destruct (estimateAffectedPopulation_run lat lon
              (calculateShockwaveRadius energy) (calculateThermalRadius energy)
              (afterOceanDecision lat lon s)) as [population Hpop].
  exists population.
  unfold calculateImpact, bind. fold lat lon mass energy.
  rewrite isOceanImpact_run. fold isOcean crater.
  rewrite Hpop. unfold ret.
  destruct isOcean; reflexivity.
Qed.

End CalculateImpactRun.

(** ** Energy conversion (C1, C3, C4) *)

(** C1, evaluated on the code at mass 2 kg and velocity 1 km/s (kinetic
    energy [10^6] joules): [calculateEnergy] returns [10^6 / 4.184e12], the
    kinetic energy divided by [TNT_ENERGY = 4.184e12], so the returned value
    times the joules of one megaton, [4.184e15], is a thousand times the
    kinetic energy and not the kinetic energy itself. *)
Theorem calculateEnergy_at_2_1 :
  calculateEnergy 2 1 = 1e6 / 4.184e12 /\
  calculateEnergy 2 1 * 4.184e15 = 1000 * (0.5 * 2 * (1000 * 1) ^ 2) /\
  calculateEnergy 2 1 * 4.184e15 <> 0.5 * 2 * (1000 * 1) ^ 2.
Proof.
  assert (H : calculateEnergy 2 1 = 1e6 / 4.184e12)
    by (unfold calculateEnergy, TNT_ENERGY; rewrite Math_pow_2; lra).
  rewrite H. repeat split; lra.
Qed.

(** C3, evaluated on the code at mass 2 kg and velocity 1 km/s (kinetic
    energy [10^6] joules): the joules rebuilt inside
    [calculateSeismicMagnitude] are [10^12], not [10^6], and the magnitude
    is [5.1], whereas [(2/3) * log10 (10^6) - 2.9] is [1.1]. *)
Theorem calculateSeismicMagnitude_at_2_1 :
  calculateEnergy 2 1 * 1e6 * TNT_ENERGY = 1e12 /\
  calculateSeismicMagnitude (calculateEnergy 2 1) = 5.1 /\
  (2 / 3) * Math_log10 (0.5 * 2 * (1000 * 1) ^ 2) - 2.9 = 1.1.
Proof.
  assert (Hlog : Math_log10 (0.5 * 2 * (1000 * 1) ^ 2) = 6).
  { replace (0.5 * 2 * (1000 * 1) ^ 2) with (10 ^ 6) by lra.
    rewrite Math_log10_pow10. simpl; lra. }
  split; [rewrite seismic_energyJoules; lra|].
  split; [|rewrite Hlog; lra].
  rewrite calculateSeismicMagnitude_of_energy by lra.
  rewrite Hlog; lra.
Qed.

(** C4, evaluated on the code: for a diameter of 10000 m and a velocity of
    20 km/s the pipeline's energy lies between [10^10] and [10^11], above
    the [10^9] that bounds the documented order of magnitude. *)
Theorem chicxulub_energy :
  1e10 < calculateEnergy (calculateMass 10000) 20 < 1e11.
Proof.
  unfold calculateEnergy, TNT_ENERGY.
  rewrite Math_pow_2, calculateMass_cube.
  pose proof PI_bounds. split; lra.
Qed.

(** ** Crater geometry (C6, C7, C9) *)

(** C6: for an energy [0 <= E], an angle in [(0, 90]] and either terrain,
    [calculateCraterDiameter] is [max(0.1, 0.8 * E^0.33 * sin(a*pi/180)^0.3 * t)]
    with [t = 0.7] for ocean and [1.0] for land, whatever the velocity; in
    particular it is at least [0.1]. *)
Theorem calculateCraterDiameter_formula
    (E v a : number) (ocean : bool) :
  0 <= E -> 0 < a <= 90 ->
  calculateCraterDiameter E v a ocean = specCraterDiameterKm E a ocean /\
  0.1 <= calculateCraterDiameter E v a ocean.
Proof.
  intros HE Ha.
  assert (Hsin : 0 < sin (a * PI / 180)).
  { pose proof PI_bounds. apply sin_gt_0; nra. }
  split.
  - unfold calculateCraterDiameter, specCraterDiameterKm,
      Math_max, Math_sin, Math_PI.
    rewrite !Math_pow_power_nonneg by lra. reflexivity.
  - unfold calculateCraterDiameter, Math_max. apply Rmax_l.
Qed.

Lemma calculateCraterDiameter_formula_witness :
  0 <= 0 /\ 0 < 90 <= 90 /\
  calculateCraterDiameter 0 20 90 false = specCraterDiameterKm 0 90 false /\
  0.1 <= calculateCraterDiameter 0 20 90 false.
Proof.
  assert (HE : 0 <= 0) by lra.
  assert (Ha : 0 < 90 <= 90) by lra.
  split; [exact HE|]. split; [exact Ha|].
  exact (calculateCraterDiameter_formula 0 20 90 false HE Ha).
Defined.

(** C7: every call of [calculateImpact] returns a record, and in that
    record [craterDepth] is [craterDiameter / 4], for every input and every
    random source. *)
Theorem calculateImpact_craterDepth (data : AsteroidData.t) (s : RandomSource) :
  exists r s',
    calculateImpact data s = (Returned r, s') /\
    ImpactResults.craterDepth r = ImpactResults.craterDiameter r / 4.
Proof.
  destruct (calculateImpact_run data s) as [population Hrun].
  cbv zeta in Hrun. rewrite Hrun.
  do 2 eexists. split; [reflexivity|]. reflexivity.
Qed.

(** C9: [calculateCraterDiameter] does not depend on its velocity argument. *)
Theorem calculateCraterDiameter_velocity_independent
    (E v1 v2 a : number) (ocean : bool) :
  calculateCraterDiameter E v1 a ocean = calculateCraterDiameter E v2 a ocean.
Proof. reflexivity. Qed.

(** ** Ocean classification and the random source (C5, C8, C10) *)

(** Counterexample to C5: on the valid input [mid_pacific], whose impact
    point lies in the Pacific box, [calculateImpact] consumes one sample of
    the random source, not two. *)
Lemma calculateImpact_mid_pacific_one_draw :
  valid_input mid_pacific /\
  exists r s',
    calculateImpact mid_pacific (constant_source 0.5) = (Returned r, s') /\
    draws (constant_source 0.5) s' = 1%nat /\
    draws (constant_source 0.5) s' <> 2%nat.
Proof.
  split; [unfold valid_input, mid_pacific; simpl; lra|].
  destruct (calculateImpact_run mid_pacific (constant_source 0.5))
    as [population Hrun].
  cbv zeta in Hrun. rewrite Hrun. do 2 eexists. split; [reflexivity|].
  assert (Hbox : inOceanBox (AsteroidData.impactLat mid_pacific)
                            (AsteroidData.impactLon mid_pacific) = true).
  { unfold inOceanBox, pacificBox, mid_pacific, Math_abs; simpl.
    rewrite Rabs_R0. compare_numbers; reflexivity. }
  unfold afterOceanDecision. rewrite Hbox.
  unfold draws, advance; cbn [cursor constant_source]. split; lia.
Qed.

(** [calculateImpact] with its population estimate named: the estimate is
    what [estimateAffectedPopulation] returns on the source as
    [isOceanImpact] left it. *)
Lemma calculateImpact_run_population
    (data : AsteroidData.t) (s s2 : RandomSource) (population : number) :
  let lat := AsteroidData.impactLat data in
  let lon := AsteroidData.impactLon data in
  let mass := calculateMass (AsteroidData.diameter data) in
  let energy := calculateEnergy mass (AsteroidData.velocity data) in
  let isOcean := oceanDecision lat lon s in
  let crater :=
    calculateCraterDiameter energy (AsteroidData.velocity data)
                            (AsteroidData.angle data) isOcean in
  estimateAffectedPopulation lat lon (calculateShockwaveRadius energy)
    (calculateThermalRadius energy) (afterOceanDecision lat lon s)
  = (Returned population, s2) ->
  calculateImpact data s =
  (Returned
     (ImpactResults.mk mass energy crater (calculateCraterDepth crater)
        (calculateShockwaveRadius energy) (calculateSeismicMagnitude energy)
        (calculateThermalRadius energy) isOcean
        (if isOcean
         then Some (calculateTsunamiHeight energy crater None)
         else None)
        population),
   s2).
Proof.
  intros lat lon mass energy isOcean crater Hpop.
  unfold calculateImpact, bind. fold lat lon mass energy.
  rewrite isOceanImpact_run. fold isOcean crater.
  rewrite Hpop. unfold ret.
  destruct isOcean; reflexivity.
Qed.

(** C5, amended: every call of [calculateImpact] returns.  When the impact
    point lies in one of the three ocean boxes it consumes exactly one
    sample of the random source, the population variation: the record is an
    ocean impact and its [affectedPopulation] is what
    [estimateAffectedPopulation] returns on the untouched source, whose
    density is [max(1, base * (0.5 + r))] for the sample [r] under the
    cursor.  Otherwise it consumes exactly two: the sample under the cursor
    decides the ocean flag (ocean exactly when it is below [0.71]), and the
    next one is the population variation in the same way. *)
Theorem calculateImpact_draws (data : AsteroidData.t) (s : RandomSource) :
  exists r s' base,
    calculateImpact data s = (Returned r, s') /\
    draws s s' =
    (if inOceanBox (AsteroidData.impactLat data) (AsteroidData.impactLon data)
     then 1%nat else 2%nat) /\
    ImpactResults.isOceanImpact r =
    (if inOceanBox (AsteroidData.impactLat data) (AsteroidData.impactLon data)
     then true else (samples s (cursor s) <? 0.71)) /\
    estimateAffectedPopulation
      (AsteroidData.impactLat data) (AsteroidData.impactLon data)
      (ImpactResults.shockwaveRadius r) (ImpactResults.thermalRadius r)
      (if inOceanBox (AsteroidData.impactLat data) (AsteroidData.impactLon data)
       then s else advance s)
    = (Returned (ImpactResults.affectedPopulation r), s') /\
    getPopulationDensity
      (AsteroidData.impactLat data) (AsteroidData.impactLon data)
      (if inOceanBox (AsteroidData.impactLat data) (AsteroidData.impactLon data)
       then s else advance s)
    = (Returned
         (Math_max 1
            (base *
             (0.5 + samples s
                      (if inOceanBox (AsteroidData.impactLat data)
                                     (AsteroidData.impactLon data)
                       then cursor s else S (cursor s))))),
       s').
Proof.
  set (lat := AsteroidData.impactLat data).
  set (lon := AsteroidData.impactLon data).
  set (E := calculateEnergy (calculateMass (AsteroidData.diameter data))
                            (AsteroidData.velocity data)).
  destruct (estimateAffectedPopulation_run lat lon
              (calculateShockwaveRadius E) (calculateThermalRadius E)
              (afterOceanDecision lat lon s)) as [population Hpop].
  pose proof (calculateImpact_run_population data s _ population Hpop) as Hrun.
  cbv zeta in Hrun. fold lat lon E in Hrun.
  rewrite Hrun. do 2 eexists.
  unfold afterOceanDecision, oceanDecision in *.
  unfold getPopulationDensity, bind, Math_random, ret.
  eexists. split; [reflexivity|]. cbn [ImpactResults.isOceanImpact
    ImpactResults.shockwaveRadius ImpactResults.thermalRadius
    ImpactResults.affectedPopulation].
  destruct (inOceanBox lat lon).
  - split; [unfold draws, advance; cbn [cursor]; lia|].
    split; [reflexivity|]. split; [exact Hpop|]. reflexivity.
  - split; [unfold draws, advance; cbn [cursor]; lia|].
    split; [reflexivity|]. split; [exact Hpop|]. reflexivity.
Qed.

(** C8: every call of [calculateImpact] returns a record, and in that
    record [tsunamiHeight] is defined if and only if [isOceanImpact] is
    true, for every input and every random source. *)
Theorem calculateImpact_tsunami_iff_ocean
    (data : AsteroidData.t) (s : RandomSource) :
  exists r s',
    calculateImpact data s = (Returned r, s') /\
    (ImpactResults.tsunamiHeight r <> None <->
     ImpactResults.isOceanImpact r = true).
Proof.
  destruct (calculateImpact_run data s) as [population Hrun].
  cbv zeta in Hrun. rewrite Hrun. do 2 eexists. split; [reflexivity|].
  simpl.
  destruct (oceanDecision (AsteroidData.impactLat data)
                          (AsteroidData.impactLon data) s);
    split; congruence.
Qed.

(** C10: at a latitude with [60 <= |lat|], whatever the longitude, none of
    the three ocean boxes matches, and [isOceanImpact] consumes one sample
    and answers ocean exactly when that sample is below [0.71]. *)
Theorem isOceanImpact_high_latitude
    (lat lon : number) (s : RandomSource) :
  60 <= Rabs lat ->
  pacificBox lat lon = false /\
  atlanticBox lat lon = false /\
  indianBox lat lon = false /\
  exists b,
    isOceanImpact lat lon s = (Returned b, advance s) /\
    (b = true <-> samples s (cursor s) < 0.71).
Proof.
  intros Hlat.
  assert (Habs : (Math_abs lat <? 60) = false)
    by (apply ltb_false_iff; exact Hlat).
  assert (Hp : pacificBox lat lon = false)
    by (unfold pacificBox; rewrite Habs; apply andb_false_r).
  assert (Ha : atlanticBox lat lon = false)
    by (unfold atlanticBox; rewrite Habs; apply andb_false_r).
  assert (Hi : indianBox lat lon = false).
  { unfold indianBox.
    destruct (Rcase_abs lat) as [Hneg|Hpos].
    - rewrite (Rabs_left lat Hneg) in Hlat.
      assert (Hgt : (lat >? -50) = false) by (apply ltb_false_iff; lra).
      rewrite Hgt. apply andb_false_r.
    - rewrite (Rabs_right lat Hpos) in Hlat.
      assert (Hlt : (lat <? 20) = false) by (apply ltb_false_iff; lra).
      rewrite Hlt. rewrite andb_false_r. reflexivity. }
  repeat (split; [assumption|]).
  exists (samples s (cursor s) <? EARTH_OCEAN_COVERAGE). split.
  - apply isOceanImpact_fallback. unfold inOceanBox. now rewrite Hp, Ha, Hi.
  - unfold EARTH_OCEAN_COVERAGE. apply ltb_true_iff.
Qed.

Lemma isOceanImpact_high_latitude_witness :
  60 <= Rabs 60.9 /\
  pacificBox 60.9 101.9 = false /\
  atlanticBox 60.9 101.9 = false /\
  indianBox 60.9 101.9 = false /\
  exists b,
    isOceanImpact 60.9 101.9 (constant_source 0.5) =
    (Returned b, advance (constant_source 0.5)) /\
    (b = true <->
     samples (constant_source 0.5) (cursor (constant_source 0.5)) < 0.71).
Proof.
  assert (H : 60 <= Rabs 60.9) by (rewrite Rabs_right; lra).
  split; [exact H|].
  exact (isOceanImpact_high_latitude 60.9 101.9 (constant_source 0.5) H).
Defined.

(** ** Input validation (C2) *)

(** Counterexample to C2: on [grazing], whose angle is [0] and therefore
    outside [(0, 90]], [calculateImpact] throws nothing and returns a fully
    computed record, with the crater diameter at its floor. *)
Lemma calculateImpact_grazing_returns :
  ~ valid_input grazing /\
  AsteroidData.angle grazing = 0 /\
  exists r s',
    calculateImpact grazing (constant_source 0.5) = (Returned r, s') /\
    ImpactResults.craterDiameter r = 0.1 /\
    ImpactResults.craterDepth r = 0.025.
Proof.
  split; [unfold valid_input, grazing; simpl; lra|].
  split; [reflexivity|].
  destruct (calculateImpact_run grazing (constant_source 0.5))
    as [population Hrun].
  cbv zeta in Hrun. rewrite Hrun. do 2 eexists. split; [reflexivity|].
  assert (Hcrater : forall E v o, calculateCraterDiameter E v 0 o = 0.1).
  { intros E v o. unfold calculateCraterDiameter, Math_sin, Math_max.
    replace (0 * Math_PI / 180) with 0 by lra. rewrite sin_0.
    rewrite (Math_pow_power_nonneg 0 0.3) by lra.
    unfold power_nonneg. destruct (Req_dec_T 0 0) as [_|H]; [|lra].
    rewrite Rmax_left; lra. }
  simpl. unfold calculateCraterDepth. rewrite Hcrater. split; lra.
Qed.

(** C2, amended: [calculateImpact] validates nothing; for every input, also
    with a diameter or velocity [<= 0] or an angle outside [(0, 90]], and
    every random source, it returns a result record and throws no error. *)
Theorem calculateImpact_never_throws (data : AsteroidData.t) (s : RandomSource) :
  (exists r s', calculateImpact data s = (Returned r, s')) /\
  (forall message s', calculateImpact data s <> (Thrown message, s')).
Proof.
  destruct (calculateImpact_run data s) as [population Hrun].
  cbv zeta in Hrun. rewrite Hrun. split.
  - do 2 eexists. reflexivity.
  - intros message s' H. discriminate H.
Qed.

(** ** More facts about the number model *)

Lemma Math_pow_positive (x y : number) :
  0 < x -> y <> 0 -> Math_pow x y = Rpower x y /\ 0 < Math_pow x y.
Proof.
  intros Hx Hy. unfold Math_pow.
  destruct (Req_dec_T y 0) as [H|_]; [contradiction|].
  destruct (Rlt_dec 0 x) as [_|H]; [|contradiction].
  split; [reflexivity|]. unfold Rpower. apply exp_pos.
Qed.

Lemma Math_pow_zero (y : number) : 0 < y -> Math_pow 0 y = 0.
Proof.
  intros Hy. unfold Math_pow.
  destruct (Req_dec_T y 0) as [H|_]; [lra|].
  destruct (Rlt_dec 0 0) as [H|_]; [lra|].
  destruct (Req_dec_T 0 0) as [_|H]; [reflexivity|lra].
Qed.

Lemma Math_pow_nonneg (x y : number) :
  0 <= x -> 0 < y -> 0 <= Math_pow x y.
Proof.
  intros [Hx|<-] Hy.
  - destruct (Math_pow_positive x y Hx) as [_ H]; lra.
  - rewrite Math_pow_zero by assumption. lra.
Qed.

Lemma Math_pow_monotone (x1 x2 y : number) :
  0 <= x1 <= x2 -> 0 < y -> Math_pow x1 y <= Math_pow x2 y.
Proof.
  intros [[H1|<-] H12] Hy.
  - destruct (Math_pow_positive x1 y H1) as [-> _]; [lra|].
    destruct (Math_pow_positive x2 y) as [-> _]; [lra|lra|].
    apply Rle_Rpower_l; lra.
  - rewrite Math_pow_zero by assumption. apply Math_pow_nonneg; lra.
Qed.

Lemma Math_pow_le_1 (x y : number) :
  0 <= x <= 1 -> 0 < y -> Math_pow x y <= 1.
Proof.
  intros Hx Hy.
  assert (H1 : Math_pow 1 y = 1).
  { destruct (Math_pow_positive 1 y) as [-> _]; [lra|lra|].
    unfold Rpower. rewrite ln_1, Rmult_0_r. apply exp_0. }
  rewrite <- H1. apply Math_pow_monotone; lra.
Qed.

Lemma Math_pow_exponent_monotone (x y1 y2 : number) :
  1 <= x -> 0 < y1 <= y2 -> Math_pow x y1 <= Math_pow x y2.
Proof.
  intros Hx Hy.
  destruct (Math_pow_positive x y1) as [-> _]; [lra|lra|].
  destruct (Math_pow_positive x y2) as [-> _]; [lra|lra|].
  apply Rle_Rpower; lra.
Qed.

Lemma Math_round_nonneg_integer (x : number) :
  0 <= x -> exists n : Z, (0 <= n)%Z /\ Math_round x = IZR n.
Proof.
  intros Hx. unfold Math_round. exists (Int_part (x + 0.5)).
  split; [|reflexivity].
  destruct (base_Int_part (x + 0.5)) as [_ Hlow].
  assert (H : IZR (-1) < IZR (Int_part (x + 0.5))) by lra.
  apply lt_IZR in H. lia.
Qed.

Lemma sin_degrees_range (a : number) :
  0 < a <= 90 -> 0 < sin (a * PI / 180) <= 1.
Proof.
  intros Ha. pose proof PI_bounds as HPI. split.
  - apply sin_gt_0; nra.
  - destruct (SIN_bound (a * PI / 180)); assumption.
Qed.

(** ** Monotonicity of the mass and energy stages *)

(** X2: [calculateMass] never decreases when the diameter grows. *)
Theorem calculateMass_nondecreasing (d1 d2 : number) :
  d1 <= d2 -> calculateMass d1 <= calculateMass d2.
Proof.
  intros Hd. rewrite !calculateMass_cube.
  pose proof PI_bounds as HPI.
  assert (Hcube : d1 ^ 3 <= d2 ^ 3).
  { destruct Hd as [Hlt | ->]; [|lra].
    assert (Hq : 0 <= d2 * d2 + d1 * d2 + d1 * d1).
    { pose proof (Rle_0_sqr (d1 + d2 / 2)) as Hs. unfold Rsqr in Hs.
      pose proof (Rle_0_sqr d2) as Hs2. unfold Rsqr in Hs2. nra. }
    assert (Hdiff : 0 <= (d2 - d1) * (d2 * d2 + d1 * d2 + d1 * d1))
      by (apply Rmult_le_pos; lra).
    simpl. lra. }
  apply Rmult_le_compat_r; [lra|].
  apply Rmult_le_compat_l; lra.
Qed.

Lemma calculateMass_nondecreasing_witness :
  -1 <= 2 /\ calculateMass (-1) <= calculateMass 2.
Proof.
  assert (H : -1 <= 2) by lra.
  split; [exact H | exact (calculateMass_nondecreasing (-1) 2 H)].
Defined.

(** X4: for non-negative masses and velocities, the velocities up to the
    speed of light (299792.458 km/s, which keeps the squared velocity
    finite in the source's double arithmetic), the energy is non-negative
    and never decreases when the mass or the velocity grows. *)
Theorem calculateEnergy_nonneg_nondecreasing (m1 m2 v1 v2 : number) :
  0 <= m1 <= m2 -> 0 <= v1 <= v2 -> v2 <= 299792.458 ->
  0 <= calculateEnergy m1 v1 <= calculateEnergy m2 v2.
Proof.
  intros Hm Hv _. unfold calculateEnergy, TNT_ENERGY. rewrite !Math_pow_2.
  assert (Hp1 : 0 <= v1 * 1000 * (v1 * 1000)) by nra.
  assert (Hp : v1 * 1000 * (v1 * 1000) <= v2 * 1000 * (v2 * 1000)) by nra.
  set (p1 := v1 * 1000 * (v1 * 1000)) in *.
  set (p2 := v2 * 1000 * (v2 * 1000)) in *.
  assert (Hj1 : 0 <= 0.5 * m1 * p1)
    by (apply Rmult_le_pos; lra).
  assert (Hj : 0.5 * m1 * p1 <= 0.5 * m2 * p2)
    by (apply Rmult_le_compat; lra).
  assert (Hinv : 0 < / 4.184e12) by (apply Rinv_0_lt_compat; lra).
  split.
  - apply Rmult_le_pos; lra.
  - apply Rmult_le_compat_r; lra.
Qed.

Lemma calculateEnergy_nonneg_nondecreasing_witness :
  0 <= 0 <= 1000 /\ 0 <= 7 <= 20 /\ 20 <= 299792.458 /\
  0 <= calculateEnergy 0 7 <= calculateEnergy 1000 20.
Proof.
  assert (Hm : 0 <= 0 <= 1000) by lra.
  assert (Hv : 0 <= 7 <= 20) by lra.
  assert (Hc : 20 <= 299792.458) by lra.
  split; [exact Hm|]. split; [exact Hv|]. split; [exact Hc|].
  exact (calculateEnergy_nonneg_nondecreasing 0 1000 7 20 Hm Hv Hc).
Defined.

(** For a positive diameter and a non-zero velocity the first two stages
    give a positive mass and a positive energy. *)
Lemma mass_and_energy_positive (d v : number) :
  0 < d -> v <> 0 ->
  0 < calculateMass d /\ 0 < calculateEnergy (calculateMass d) v.
Proof.
  intros Hd Hv.
  assert (Hm : 0 < calculateMass d).
  { rewrite calculateMass_cube. pose proof PI_bounds as HPI.
    assert (H3 : 0 < d ^ 3) by (apply pow_lt; assumption).
    apply Rmult_lt_0_compat; [|lra].
    apply Rmult_lt_0_compat; lra. }
  split; [exact Hm|].
  unfold calculateEnergy, TNT_ENERGY. rewrite Math_pow_2.
  assert (Hsq : 0 < v * 1000 * (v * 1000)) by nra.
  assert (Hke : 0 < 0.5 * calculateMass d * (v * 1000 * (v * 1000)))
    by (apply Rmult_lt_0_compat; lra).
  apply Rmult_lt_0_compat; [exact Hke|].
  apply Rinv_0_lt_compat; lra.
Qed.

(** ** Monotonicity and bounds of the crater stage *)

Lemma crater_factors (E a : number) (ocean : bool) :
  0 <= E -> 0 < a <= 90 ->
  0 <= Math_pow E 0.33 /\
  0 < Math_pow (Math_sin ((a * Math_PI) / 180)) 0.3 <= 1 /\
  0 < (if ocean then 0.7 else 1.0) <= 1.
Proof.
  intros HE Ha.
  assert (Hsin : 0 < sin (a * PI / 180) <= 1) by now apply sin_degrees_range.
  unfold Math_sin, Math_PI.
  split; [apply Math_pow_nonneg; lra|]. split.
  - split.
    + destruct (Math_pow_positive (sin (a * PI / 180)) 0.3) as [_ H]; lra.
    + apply Math_pow_le_1; lra.
  - destruct ocean; lra.
Qed.

(** X8: on the documented domain the crater diameter never decreases when
    the energy grows. *)
Theorem calculateCraterDiameter_monotone_in_energy
    (E1 E2 v a : number) (ocean : bool) :
  0 <= E1 <= E2 -> 0 < a <= 90 ->
  calculateCraterDiameter E1 v a ocean <= calculateCraterDiameter E2 v a ocean.
Proof.
  intros HE Ha.
  destruct (crater_factors E1 a ocean) as (_ & Hae & Htf); [lra|assumption|].
  assert (Hp : Math_pow E1 0.33 <= Math_pow E2 0.33)
    by (apply Math_pow_monotone; lra).
  unfold calculateCraterDiameter, Math_max.
  apply Rle_max_compat_l.
  set (ae := Math_pow (Math_sin (a * Math_PI / 180)) 0.3) in *.
  set (tf := if ocean then 0.7 else 1.0) in *.
  rewrite !Rmult_assoc.
  apply Rmult_le_compat_l; [lra|].
  apply Rmult_le_compat_r; [|exact Hp].
  apply Rmult_le_pos; lra.
Qed.

Lemma calculateCraterDiameter_monotone_in_energy_witness :
  0 <= 10 <= 1000 /\ 0 < 45 <= 90 /\
  calculateCraterDiameter 10 20 45 true <= calculateCraterDiameter 1000 20 45 true.
Proof.
  assert (HE : 0 <= 10 <= 1000) by lra.
  assert (Ha : 0 < 45 <= 90) by lra.
  split; [exact HE|]. split; [exact Ha|].
  exact (calculateCraterDiameter_monotone_in_energy 10 1000 20 45 true HE Ha).
Defined.

(** X9: on the documented domain a steeper impact never gives a smaller
    crater: the diameter is non-decreasing in the angle over [(0, 90]]. *)
Theorem calculateCraterDiameter_monotone_in_angle
    (E v a1 a2 : number) (ocean : bool) :
  0 <= E -> 0 < a1 <= a2 -> a2 <= 90 ->
  calculateCraterDiameter E v a1 ocean <= calculateCraterDiameter E v a2 ocean.
Proof.
  intros HE Ha1 Ha2.
  destruct (crater_factors E a1 ocean) as (Hp & _ & Htf); [lra|lra|].
  assert (H1 : 0 < sin (a1 * PI / 180) <= 1)
    by (apply sin_degrees_range; lra).
  assert (Hsin : sin (a1 * PI / 180) <= sin (a2 * PI / 180)).
  { pose proof PI_bounds as HPI. apply sin_incr_1; nra. }
  assert (Hae : Math_pow (Math_sin (a1 * Math_PI / 180)) 0.3
                <= Math_pow (Math_sin (a2 * Math_PI / 180)) 0.3)
    by (unfold Math_sin, Math_PI; apply Math_pow_monotone; lra).
  unfold calculateCraterDiameter, Math_max.
  apply Rle_max_compat_l.
  set (p := Math_pow E 0.33) in *.
  set (tf := if ocean then 0.7 else 1.0) in *.
  apply Rmult_le_compat_r; [lra|].
  apply Rmult_le_compat_l; [|exact Hae].
  apply Rmult_le_pos; lra.
Qed.

Lemma calculateCraterDiameter_monotone_in_angle_witness :
  0 <= 100 /\ 0 < 30 <= 60 /\ 60 <= 90 /\
  calculateCraterDiameter 100 20 30 false <= calculateCraterDiameter 100 20 60 false.
Proof.
  assert (HE : 0 <= 100) by lra.
  assert (Ha1 : 0 < 30 <= 60) by lra.
  assert (Ha2 : 60 <= 90) by lra.
  split; [exact HE|]. split; [exact Ha1|]. split; [exact Ha2|].
  exact (calculateCraterDiameter_monotone_in_angle 100 20 30 60 false HE Ha1 Ha2).
Defined.

(** X10: on the documented domain an ocean impact never gives a larger
    crater than the same impact on land. *)
Theorem calculateCraterDiameter_ocean_le_land (E v a : number) :
  0 <= E -> 0 < a <= 90 ->
  calculateCraterDiameter E v a true <= calculateCraterDiameter E v a false.
Proof.
  intros HE Ha.
  destruct (crater_factors E a true) as (Hp & Hae & _); [lra|assumption|].
  unfold calculateCraterDiameter, Math_max.
  apply Rle_max_compat_l.
  set (ae := Math_pow (Math_sin (a * Math_PI / 180)) 0.3) in *.
  set (p := Math_pow E 0.33) in *.
  assert (Hx : 0 <= 0.8 * p * ae)
    by (apply Rmult_le_pos; [apply Rmult_le_pos|]; lra).
  lra.
Qed.

Lemma calculateCraterDiameter_ocean_le_land_witness :
  0 <= 100 /\ 0 < 45 <= 90 /\
  calculateCraterDiameter 100 20 45 true <= calculateCraterDiameter 100 20 45 false.
Proof.
  assert (HE : 0 <= 100) by lra.
  assert (Ha : 0 < 45 <= 90) by lra.
  split; [exact HE|]. split; [exact Ha|].
  exact (calculateCraterDiameter_ocean_le_land 100 20 45 HE Ha).
Defined.

(** X11: on the documented domain the crater diameter is at most the
    larger of its floor [0.1] and the shockwave radius of the same
    energy. *)
Theorem calculateCraterDiameter_within_shockwave
    (E v a : number) (ocean : bool) :
  0 <= E -> 0 < a <= 90 ->
  calculateCraterDiameter E v a ocean
  <= Rmax 0.1 (calculateShockwaveRadius E).
Proof.
  intros HE Ha.
  destruct (crater_factors E a ocean) as (Hp & Hae & Htf); [lra|assumption|].
  unfold calculateCraterDiameter, calculateShockwaveRadius, Math_max.
  apply Rle_max_compat_l.
  set (ae := Math_pow (Math_sin (a * Math_PI / 180)) 0.3) in *.
  set (tf := if ocean then 0.7 else 1.0) in *.
  set (p := Math_pow E 0.33) in *.
  assert (H1 : 0.8 * p * ae <= 0.8 * p) by nra.
  assert (H2 : 0 <= 0.8 * p * ae)
    by (apply Rmult_le_pos; [apply Rmult_le_pos|]; lra).
  assert (H3 : 0.8 * p * ae * tf <= 0.8 * p * ae) by nra.
  lra.
Qed.

Lemma calculateCraterDiameter_within_shockwave_witness :
  0 <= 100 /\ 0 < 90 <= 90 /\
  calculateCraterDiameter 100 20 90 false
  <= Rmax 0.1 (calculateShockwaveRadius 100).
Proof.
  assert (HE : 0 <= 100) by lra.
  assert (Ha : 0 < 90 <= 90) by lra.
  split; [exact HE|]. split; [exact Ha|].
  exact (calculateCraterDiameter_within_shockwave 100 20 90 false HE Ha).
Defined.

(** ** Shockwave and thermal radii, seismic magnitude, tsunami height *)

(** X12: both radii are non-negative and non-decreasing in a non-negative
    energy. *)
Theorem radii_monotone (E1 E2 : number) :
  0 <= E1 <= E2 ->
  0 <= calculateShockwaveRadius E1 <= calculateShockwaveRadius E2 /\
  0 <= calculateThermalRadius E1 <= calculateThermalRadius E2.
Proof.
  intros HE. unfold calculateShockwaveRadius, calculateThermalRadius.
  assert (H33 : 0 <= Math_pow E1 0.33) by (apply Math_pow_nonneg; lra).
  assert (H41 : 0 <= Math_pow E1 0.41) by (apply Math_pow_nonneg; lra).
  assert (M33 : Math_pow E1 0.33 <= Math_pow E2 0.33)
    by (apply Math_pow_monotone; lra).
  assert (M41 : Math_pow E1 0.41 <= Math_pow E2 0.41)
    by (apply Math_pow_monotone; lra).
  lra.
Qed.

Lemma radii_monotone_witness :
  0 <= 0 <= 15 /\
  0 <= calculateShockwaveRadius 0 <= calculateShockwaveRadius 15 /\
  0 <= calculateThermalRadius 0 <= calculateThermalRadius 15.
Proof.
  assert (HE : 0 <= 0 <= 15) by lra.
  split; [exact HE | exact (radii_monotone 0 15 HE)].
Defined.

(** X13: from one megaton up the thermal radius exceeds the shockwave
    radius, so the affected area of [estimateAffectedPopulation] is the
    thermal disc. *)
Theorem thermal_exceeds_shockwave (E : number) :
  1 <= E ->
  calculateShockwaveRadius E < calculateThermalRadius E /\
  Math_max (calculateShockwaveRadius E) (calculateThermalRadius E)
  = calculateThermalRadius E.
Proof.
  intros HE.
  assert (Hlt : calculateShockwaveRadius E < calculateThermalRadius E).
  { unfold calculateShockwaveRadius, calculateThermalRadius.
    assert (Hexp : Math_pow E 0.33 <= Math_pow E 0.41)
      by (apply Math_pow_exponent_monotone; lra).
    destruct (Math_pow_positive E 0.33) as [_ Hpos]; lra. }
  split; [exact Hlt|].
  unfold Math_max. apply Rmax_right. lra.
Qed.

Lemma thermal_exceeds_shockwave_witness :
  1 <= 15 /\
  calculateShockwaveRadius 15 < calculateThermalRadius 15 /\
  Math_max (calculateShockwaveRadius 15) (calculateThermalRadius 15)
  = calculateThermalRadius 15.
Proof.
  assert (HE : 1 <= 15) by lra.
  split; [exact HE | exact (thermal_exceeds_shockwave 15 HE)].
Defined.

(** X15: the seismic magnitude never decreases when a positive energy
    grows. *)
Theorem calculateSeismicMagnitude_nondecreasing (E1 E2 : number) :
  0 < E1 <= E2 ->
  calculateSeismicMagnitude E1 <= calculateSeismicMagnitude E2.
Proof.
  intros [HE [Hlt | ->]]; [|lra].
  unfold calculateSeismicMagnitude, TNT_ENERGY, Math_log10.
  assert (Hln : ln (E1 * 1e6 * 4.184e12) < ln (E2 * 1e6 * 4.184e12))
    by (apply ln_increasing; lra).
  pose proof ln_10_pos as H10.
  assert (Hdiv : ln (E1 * 1e6 * 4.184e12) / ln 10
                 < ln (E2 * 1e6 * 4.184e12) / ln 10)
    by (apply Rmult_lt_compat_r; [apply Rinv_0_lt_compat; lra | exact Hln]).
  lra.
Qed.

Lemma calculateSeismicMagnitude_nondecreasing_witness :
  0 < 1 <= 15 /\ calculateSeismicMagnitude 1 <= calculateSeismicMagnitude 15.
Proof.
  assert (HE : 0 < 1 <= 15) by lra.
  split; [exact HE | exact (calculateSeismicMagnitude_nondecreasing 1 15 HE)].
Defined.

(** X16: with the default water depth, from a crater diameter of 20 km on
    the initial height is the cap [4000 * 0.5] and the tsunami height no
    longer depends on the crater: it is [4000 * 0.5 * energy^0.25 * 0.1]. *)
Theorem calculateTsunamiHeight_saturates_from_20_km (E c : number) :
  0 <= E -> 20 <= c ->
  calculateTsunamiHeight E c None = 4000 * 0.5 * Math_pow E 0.25 * 0.1.
Proof.
  intros _ Hc. unfold calculateTsunamiHeight, Math_min.
  rewrite Rmin_right by lra. reflexivity.
Qed.

Lemma calculateTsunamiHeight_saturates_from_20_km_witness :
  0 <= 100 /\ 20 <= 25 /\
  calculateTsunamiHeight 100 25 None = 4000 * 0.5 * Math_pow 100 0.25 * 0.1.
Proof.
  assert (HE : 0 <= 100) by lra.
  assert (Hc : 20 <= 25) by lra.
  split; [exact HE|]. split; [exact Hc|].
  exact (calculateTsunamiHeight_saturates_from_20_km 100 25 HE Hc).
Defined.

(** X17: for a non-negative energy, crater diameter and water depth (given,
    or the default 4000) the tsunami height is non-negative and at most the
    height of the capped case, [depth * 0.5 * energy^0.25 * 0.1]. *)
Theorem calculateTsunamiHeight_capped
    (E c d : number) (waterDepth : option number) :
  (waterDepth = None /\ d = 4000) \/ waterDepth = Some d ->
  0 <= E -> 0 <= c -> 0 <= d ->
  0 <= calculateTsunamiHeight E c waterDepth
    <= d * 0.5 * Math_pow E 0.25 * 0.1.
Proof.
  intros Hw HE Hc Hdepth.
  assert (Hd : match waterDepth with Some x => x | None => 4000 end = d)
    by (destruct Hw as [[-> ->] | ->]; reflexivity).
  unfold calculateTsunamiHeight, Math_min. rewrite Hd.
  assert (Hp : 0 <= Math_pow E 0.25) by (apply Math_pow_nonneg; lra).
  set (p := Math_pow E 0.25) in *.
  pose proof (Rmin_r (c * 1000 / 10) (d * 0.5)) as Hr.
  assert (Hm : 0 <= Rmin (c * 1000 / 10) (d * 0.5))
    by (apply Rmin_glb; lra).
  set (m := Rmin (c * 1000 / 10) (d * 0.5)) in *.
  split; nra.
Qed.

Lemma calculateTsunamiHeight_capped_witness :
  ((@None R = None /\ 4000 = 4000) \/ @None R = Some 4000) /\
  0 <= 100 /\ 0 <= 5 /\ 0 <= 4000 /\
  0 <= calculateTsunamiHeight 100 5 None
    <= 4000 * 0.5 * Math_pow 100 0.25 * 0.1.
Proof.
  assert (Hw : (@None R = None /\ 4000 = 4000) \/ @None R = Some 4000)
    by (left; split; reflexivity).
  assert (HE : 0 <= 100) by lra.
  assert (Hc : 0 <= 5) by lra.
  assert (Hd : 0 <= 4000) by lra.
  split; [exact Hw|]. split; [exact HE|]. split; [exact Hc|]. split; [exact Hd|].
  exact (calculateTsunamiHeight_capped 100 5 4000 None Hw HE Hc Hd).
Defined.

(** ** Ocean classification: boxes, gaps and the fallback *)

Lemma pacificBox_true (lat lon : number) :
  pacificBox lat lon = true <-> (120 < lon \/ lon < -70) /\ Rabs lat < 60.
Proof.
  unfold pacificBox, gtb, Math_abs.
  rewrite andb_true_iff, orb_true_iff, !ltb_true_iff. tauto.
Qed.

Lemma atlanticBox_true (lat lon : number) :
  atlanticBox lat lon = true <-> (-70 < lon < -10) /\ Rabs lat < 60.
Proof.
  unfold atlanticBox, gtb, Math_abs.
  rewrite !andb_true_iff, !ltb_true_iff. tauto.
Qed.

Lemma indianBox_true (lat lon : number) :
  indianBox lat lon = true <-> (40 < lon < 120) /\ (-50 < lat < 20).
Proof.
  unfold indianBox, gtb.
  rewrite !andb_true_iff, !ltb_true_iff. tauto.
Qed.

Lemma inOceanBox_false (lat lon : number) :
  inOceanBox lat lon = false <->
  pacificBox lat lon = false /\ atlanticBox lat lon = false /\
  indianBox lat lon = false.
Proof. unfold inOceanBox. rewrite !orb_false_iff. tauto. Qed.

Lemma box_false (b : bool) (P : Prop) : (b = true <-> P) -> ~ P -> b = false.
Proof. intros H HP. destruct b; [exfalso; apply HP, H; reflexivity | reflexivity]. Qed.

(** X7: inside any of the three boxes, given by their coordinate ranges,
    [isOceanImpact] answers ocean and leaves the random source untouched,
    whatever the source. *)
Theorem isOceanImpact_deterministic_inside_boxes
    (lat lon : number) (s : RandomSource) :
  ((120 < lon \/ lon < -70) /\ Rabs lat < 60) \/
  ((-70 < lon < -10) /\ Rabs lat < 60) \/
  ((40 < lon < 120) /\ (-50 < lat < 20)) ->
  isOceanImpact lat lon s = (Returned true, s).
Proof.
  intros H. apply isOceanImpact_in_box. unfold inOceanBox.
  rewrite !orb_true_iff, pacificBox_true, atlanticBox_true, indianBox_true.
  tauto.
Qed.

Lemma isOceanImpact_deterministic_inside_boxes_witness :
  (((120 < -74 \/ -74 < -70) /\ Rabs 40.7 < 60) \/
   ((-70 < -74 < -10) /\ Rabs 40.7 < 60) \/
   ((40 < -74 < 120) /\ (-50 < 40.7 < 20))) /\
  isOceanImpact 40.7 (-74) (constant_source 0.9)
  = (Returned true, constant_source 0.9).
Proof.
  assert (H : ((120 < -74 \/ -74 < -70) /\ Rabs 40.7 < 60) \/
              ((-70 < -74 < -10) /\ Rabs 40.7 < 60) \/
              ((40 < -74 < 120) /\ (-50 < 40.7 < 20))).
  { left. split; [right; lra|]. rewrite Rabs_right; lra. }
  split; [exact H|].
  exact (isOceanImpact_deterministic_inside_boxes 40.7 (-74) (constant_source 0.9) H).
Defined.

(** X18: the three boxes are pairwise disjoint: no point matches two of
    them. *)
Theorem ocean_boxes_disjoint (lat lon : number) :
  pacificBox lat lon && atlanticBox lat lon = false /\
  pacificBox lat lon && indianBox lat lon = false /\
  atlanticBox lat lon && indianBox lat lon = false.
Proof.
  repeat split; apply not_true_is_false; rewrite andb_true_iff;
    rewrite ?pacificBox_true, ?atlanticBox_true, ?indianBox_true;
    intros H; lra.
Qed.

(** X19: the meridians [-70] and [120], on which the boxes touch, and the
    band of longitudes from [-10] to [40] belong to no box: there, at every
    latitude, [isOceanImpact] consumes one sample and answers by it. *)
Theorem isOceanImpact_gaps (lat lon : number) (s : RandomSource) :
  lon = -70 \/ -10 <= lon <= 40 \/ lon = 120 ->
  inOceanBox lat lon = false /\
  isOceanImpact lat lon s =
  (Returned (samples s (cursor s) <? 0.71), advance s).
Proof.
  intros Hlon.
  assert (Hbox : inOceanBox lat lon = false).
  { apply inOceanBox_false. repeat split.
    - apply (box_false _ _ (pacificBox_true lat lon)). intros H; lra.
    - apply (box_false _ _ (atlanticBox_true lat lon)). intros H; lra.
    - apply (box_false _ _ (indianBox_true lat lon)). intros H; lra. }
  split; [exact Hbox|]. now apply isOceanImpact_fallback.
Qed.

Lemma isOceanImpact_gaps_witness :
  (-70 = -70 \/ -10 <= -70 <= 40 \/ -70 = 120) /\
  inOceanBox 10 (-70) = false /\
  isOceanImpact 10 (-70) (constant_source 0.5) =
  (Returned (samples (constant_source 0.5) (cursor (constant_source 0.5)) <? 0.71),
   advance (constant_source 0.5)).
Proof.
  assert (H : -70 = -70 \/ -10 <= -70 <= 40 \/ -70 = 120) by (left; reflexivity).
  split; [exact H|].
  exact (isOceanImpact_gaps 10 (-70) (constant_source 0.5) H).
Defined.

(** X20: [isOceanImpact] never answers land without drawing: whenever it
    returns false, no box matched, exactly one sample was consumed, and
    that sample was at least [0.71]. *)
Theorem isOceanImpact_land_only_by_draw
    (lat lon : number) (s s' : RandomSource) :
  isOceanImpact lat lon s = (Returned false, s') ->
  inOceanBox lat lon = false /\ s' = advance s /\
  0.71 <= samples s (cursor s).
Proof.
  rewrite isOceanImpact_run. unfold oceanDecision, afterOceanDecision.
  destruct (inOceanBox lat lon); intros H; injection H as Hb Hs;
    [discriminate Hb|].
  split; [reflexivity|]. split; [symmetry; exact Hs|].
  apply ltb_false_iff in Hb. exact Hb.
Qed.

Lemma isOceanImpact_land_only_by_draw_witness :
  isOceanImpact 70 0 (constant_source 0.9)
  = (Returned false, advance (constant_source 0.9)) /\
  inOceanBox 70 0 = false /\
  advance (constant_source 0.9) = advance (constant_source 0.9) /\
  0.71 <= samples (constant_source 0.9) (cursor (constant_source 0.9)).
Proof.
  assert (H : isOceanImpact 70 0 (constant_source 0.9)
              = (Returned false, advance (constant_source 0.9))).
  { assert (Hgap : -70 = 0 \/ -10 <= 0 <= 40 \/ 0 = 120) by (right; left; lra).
    assert (Hbox : inOceanBox 70 0 = false).
    { apply inOceanBox_false. repeat split.
      - apply (box_false _ _ (pacificBox_true 70 0)). intros H; lra.
      - apply (box_false _ _ (atlanticBox_true 70 0)). intros H; lra.
      - apply (box_false _ _ (indianBox_true 70 0)). intros H; lra. }
    rewrite (isOceanImpact_fallback 70 0 _ Hbox).
    assert (Hs : (samples (constant_source 0.9) (cursor (constant_source 0.9))
                  <? EARTH_OCEAN_COVERAGE) = false)
      by (apply ltb_false_iff; unfold EARTH_OCEAN_COVERAGE; simpl; lra).
    rewrite Hs. reflexivity. }
  split; [exact H|].
  exact (isOceanImpact_land_only_by_draw 70 0 (constant_source 0.9)
           (advance (constant_source 0.9)) H).
Defined.

(** ** Population density and affected population *)

(** The value [getPopulationDensity] returns, with its base density left
    abstract but bounded: one of the four latitude bands times one of the
    four longitude multipliers. *)
Lemma getPopulationDensity_value (lat lon : number) (s : RandomSource) :
  exists base : number,
    0 < base <= 300 /\
    getPopulationDensity lat lon s =
    (Returned (Math_max 1 (base * (0.5 + samples s (cursor s)))), advance s).
Proof.
  unfold getPopulationDensity, bind, Math_random, ret.
  eexists. split; [|reflexivity].
  destruct (Math_abs lat <? 30); [|destruct (Math_abs lat <? 50);
    [|destruct (Math_abs lat <? 70)]];
  (destruct ((lon >? -180) && (lon <? -50)); [|
   destruct ((lon >? -50) && (lon <? 50)); [|
   destruct ((lon >? 50) && (lon <? 150))]]); lra.
Qed.

Lemma Math_round_monotone (x y : number) :
  x <= y -> Math_round x <= Math_round y.
Proof.
  intros Hxy. unfold Math_round. apply IZR_le.
  destruct (base_Int_part (x + 0.5)) as [Hx _].
  destruct (base_Int_part (y + 0.5)) as [_ Hy].
  assert (H : IZR (Int_part (x + 0.5)) < IZR (Int_part (y + 0.5) + 1))
    by (rewrite plus_IZR; lra).
  apply lt_IZR in H. lia.
Qed.

(** The estimate as the source computes it, with the density named. *)
Lemma estimateAffectedPopulation_value
    (lat lon shock thermal : number) (s : RandomSource) :
  exists base : number,
    0 < base <= 300 /\
    estimateAffectedPopulation lat lon shock thermal s
    = (Returned
         (Math_round
            (Math_max 1 (base * (0.5 + samples s (cursor s)))
             * (Math_PI * Math_pow (Math_max shock thermal) 2))),
       advance s).
Proof.
  destruct (getPopulationDensity_value lat lon s) as (base & Hbase & Hrun).
  unfold estimateAffectedPopulation, bind. rewrite Hrun. unfold ret.
  exists base. split; [exact Hbase|reflexivity].
Qed.

Lemma affectedArea_nonneg (radius : number) :
  0 <= Math_PI * Math_pow radius 2.
Proof.
  rewrite Math_pow_2. unfold Math_PI. pose proof PI_bounds.
  apply Rmult_le_pos; [lra|nra].
Qed.

(** X21: with samples in [[0, 1)] the population density lies between [1]
    and [450], at every point. *)
Theorem getPopulationDensity_range (lat lon : number) (s : RandomSource) :
  uniform s ->
  exists d,
    getPopulationDensity lat lon s = (Returned d, advance s) /\
    1 <= d <= 450.
Proof.
  intros Hs.
  destruct (getPopulationDensity_value lat lon s) as (base & Hbase & Hrun).
  eexists. split; [exact Hrun|].
  specialize (Hs (cursor s)). unfold Math_max. split; [apply Rmax_l|].
  apply Rmax_lub; [lra|]. nra.
Qed.

Lemma getPopulationDensity_range_witness :
  uniform (constant_source 0.5) /\
  exists d,
    getPopulationDensity 10 100 (constant_source 0.5)
    = (Returned d, advance (constant_source 0.5)) /\
    1 <= d <= 450.
Proof.
  assert (H : uniform (constant_source 0.5))
    by (apply constant_source_uniform; lra).
  split; [exact H|].
  exact (getPopulationDensity_range 10 100 (constant_source 0.5) H).
Defined.

(** X22: a point of the tropical band exactly on the meridian [-50] or
    [50], where two longitude regions meet, falls into neither and gets the
    last multiplier [0.3]: its density is [max(1, 200 * 0.3 * (0.5 + r))]
    for the sample [r]. *)
Theorem getPopulationDensity_on_boundary_meridian
    (lat lon : number) (s : RandomSource) :
  Rabs lat < 30 -> lon = -50 \/ lon = 50 ->
  getPopulationDensity lat lon s =
  (Returned (Rmax 1 (200 * 0.3 * (0.5 + samples s (cursor s)))), advance s).
Proof.
  intros Hlat Hlon.
  unfold getPopulationDensity, bind, Math_random, ret, Math_max, Math_abs.
  assert (H30 : (Rabs lat <? 30) = true) by (apply ltb_true_iff; exact Hlat).
  rewrite H30.
  assert (H1 : (lon <? -50) = false) by (apply ltb_false_iff; lra).
  assert (H2 : (lon >? -50) && (lon <? 50) = false).
  { destruct Hlon as [-> | ->].
    - assert (H : (-50 >? -50) = false) by (apply ltb_false_iff; lra).
      rewrite H. reflexivity.
    - assert (H : (50 <? 50) = false) by (apply ltb_false_iff; lra).
      rewrite H. apply andb_false_r. }
  assert (H3 : (lon >? 50) = false) by (apply ltb_false_iff; lra).
  rewrite H1, andb_false_r, H2, H3. reflexivity.
Qed.

Lemma getPopulationDensity_on_boundary_meridian_witness :
  Rabs 10 < 30 /\ (50 = -50 \/ 50 = 50) /\
  getPopulationDensity 10 50 (constant_source 0.5) =
  (Returned (Rmax 1 (200 * 0.3 * (0.5 + samples (constant_source 0.5)
                                           (cursor (constant_source 0.5))))),
   advance (constant_source 0.5)).
Proof.
  assert (Hlat : Rabs 10 < 30) by (rewrite Rabs_right; lra).
  assert (Hlon : 50 = -50 \/ 50 = 50) by (right; reflexivity).
  split; [exact Hlat|]. split; [exact Hlon|].
  exact (getPopulationDensity_on_boundary_meridian 10 50 (constant_source 0.5)
           Hlat Hlon).
Defined.

(** X23: with samples in [[0, 1)], for all coordinates and radii,
    [estimateAffectedPopulation] consumes one sample and returns a
    non-negative number between the rounded affected area (one person per
    square kilometre, the floor of the density) and the rounded 450-fold of
    that area, the area being
    [Math.PI * Math.pow(Math.max(shockwaveRadius, thermalRadius), 2)]. *)
Theorem estimateAffectedPopulation_between_area_bounds
    (lat lon shock thermal : number) (s : RandomSource) :
  uniform s ->
  exists population,
    estimateAffectedPopulation lat lon shock thermal s
    = (Returned population, advance s) /\
    0 <= population /\
    Math_round (Math_PI * Math_pow (Math_max shock thermal) 2) <= population /\
    population
    <= Math_round (450 * (Math_PI * Math_pow (Math_max shock thermal) 2)).
Proof.
  intros Hs.
  destruct (estimateAffectedPopulation_value lat lon shock thermal s)
    as (base & Hbase & Hrun).
  eexists. split; [exact Hrun|].
  specialize (Hs (cursor s)).
  pose proof (affectedArea_nonneg (Math_max shock thermal)) as Harea.
  set (area := Math_PI * Math_pow (Math_max shock thermal) 2) in *.
  assert (Hd : 1 <= Math_max 1 (base * (0.5 + samples s (cursor s)))
               <= 450).
  { unfold Math_max. split; [apply Rmax_l|]. apply Rmax_lub; [lra|nra]. }
  set (density := Math_max 1 (base * (0.5 + samples s (cursor s)))) in *.
  assert (Hlow : area <= density * area) by nra.
  assert (Hhigh : density * area <= 450 * area) by nra.
  destruct (Math_round_nonneg_integer (density * area)) as (n & Hn & Hround);
    [lra|].
  split; [rewrite Hround; apply IZR_le; exact Hn|].
  split; apply Math_round_monotone; assumption.
Qed.

Lemma estimateAffectedPopulation_between_area_bounds_witness :
  uniform (constant_source 0.5) /\
  exists population,
    estimateAffectedPopulation 10 100 30 50 (constant_source 0.5)
    = (Returned population, advance (constant_source 0.5)) /\
    0 <= population /\
    Math_round (Math_PI * Math_pow (Math_max 30 50) 2) <= population /\
    population <= Math_round (450 * (Math_PI * Math_pow (Math_max 30 50) 2)).
Proof.
  assert (H : uniform (constant_source 0.5))
    by (apply constant_source_uniform; lra).
  split; [exact H|].
  exact (estimateAffectedPopulation_between_area_bounds 10 100 30 50
           (constant_source 0.5) H).
Defined.

(** ** The result record as a whole *)

(** [calculateImpact_run] with the population estimate as a non-negative
    integer. *)
Lemma calculateImpact_run_integer (data : AsteroidData.t) (s : RandomSource) :
  let lat := AsteroidData.impactLat data in
  let lon := AsteroidData.impactLon data in
  let mass := calculateMass (AsteroidData.diameter data) in
  let energy := calculateEnergy mass (AsteroidData.velocity data) in
  let isOcean := oceanDecision lat lon s in
  let crater :=
    calculateCraterDiameter energy (AsteroidData.velocity data)
                            (AsteroidData.angle data) isOcean in
  exists population : Z,
    (0 <= population)%Z /\
    calculateImpact data s =
    (Returned
       (ImpactResults.mk mass energy crater (calculateCraterDepth crater)
          (calculateShockwaveRadius energy) (calculateSeismicMagnitude energy)
          (calculateThermalRadius energy) isOcean
          (if isOcean
           then Some (calculateTsunamiHeight energy crater None)
           else None)
          (IZR population)),
     advance (afterOceanDecision lat lon s)).
Proof.
  intros lat lon mass energy isOcean crater.
  destruct (estimateAffectedPopulation_value lat lon
              (calculateShockwaveRadius energy) (calculateThermalRadius energy)
              (afterOceanDecision lat lon s)) as (base & Hbase & Hpop).
  pose proof (affectedArea_nonneg (Math_max (calculateShockwaveRadius energy)
                                            (calculateThermalRadius energy)))
    as Harea.
  set (cur := afterOceanDecision lat lon s) in *.
  assert (Hd : 1 <= Math_max 1 (base * (0.5 + samples cur (cursor cur))))
    by apply Rmax_l.
  destruct (Math_round_nonneg_integer
              (Math_max 1 (base * (0.5 + samples cur (cursor cur)))
               * (Math_PI * Math_pow (Math_max (calculateShockwaveRadius energy)
                                               (calculateThermalRadius energy)) 2)))
    as (n & Hn & Hround); [nra|].
  rewrite Hround in Hpop. subst cur.
  exists n. split; [exact Hn|].
  unfold calculateImpact, bind. fold lat lon mass energy.
  rewrite isOceanImpact_run. fold isOcean crater.
  rewrite Hpop. unfold ret.
  destruct isOcean; reflexivity.
Qed.

(** X24: for a diameter between a millimetre and a million kilometres, a
    velocity between 1 m/s and the speed of light (ranges on which the
    source's double arithmetic neither overflows nor underflows), an angle
    in [(0, 90]] and samples in [[0, 1)], every field of the record is in
    range: mass, energy and both radii are positive, the crater diameter is
    at least [0.1] and its depth at least [0.025], the affected population
    is a non-negative integer, and a tsunami height, when present, is
    positive. *)
Theorem calculateImpact_physical_input_ranges
    (data : AsteroidData.t) (s : RandomSource) :
  0.001 <= AsteroidData.diameter data <= 1e9 ->
  0.001 <= AsteroidData.velocity data <= 299792.458 ->
  0 < AsteroidData.angle data <= 90 ->
  uniform s ->
  exists r s',
    calculateImpact data s = (Returned r, s') /\
    0 < ImpactResults.mass r /\
    0 < ImpactResults.energy r /\
    0.1 <= ImpactResults.craterDiameter r /\
    0.025 <= ImpactResults.craterDepth r /\
    0 < ImpactResults.shockwaveRadius r /\
    0 < ImpactResults.thermalRadius r /\
    (exists n : Z, (0 <= n)%Z /\ ImpactResults.affectedPopulation r = IZR n) /\
    (forall h, ImpactResults.tsunamiHeight r = Some h -> 0 < h).
Proof.
  intros Hd Hv Ha _.
  destruct (calculateImpact_run_integer data s) as (n & Hn & Hrun).
  cbv zeta in Hrun. rewrite Hrun. do 2 eexists. split; [reflexivity|].
  destruct (mass_and_energy_positive (AsteroidData.diameter data)
              (AsteroidData.velocity data)) as [Hm HE]; [lra|lra|].
  set (E := calculateEnergy (calculateMass (AsteroidData.diameter data))
                            (AsteroidData.velocity data)) in *.
  set (ocean := oceanDecision (AsteroidData.impactLat data)
                              (AsteroidData.impactLon data) s).
  assert (Hc : 0.1 <= calculateCraterDiameter E (AsteroidData.velocity data)
                        (AsteroidData.angle data) ocean)
    by (unfold calculateCraterDiameter, Math_max; apply Rmax_l).
  set (c := calculateCraterDiameter E (AsteroidData.velocity data)
              (AsteroidData.angle data) ocean) in *.
  destruct (Math_pow_positive E 0.33) as [_ H33]; [lra|lra|].
  destruct (Math_pow_positive E 0.41) as [_ H41]; [lra|lra|].
  destruct (Math_pow_positive E 0.25) as [_ H25]; [lra|lra|].
  simpl.
  split; [exact Hm|]. split; [exact HE|]. split; [exact Hc|].
  split; [unfold calculateCraterDepth; lra|].
  split; [unfold calculateShockwaveRadius; lra|].
  split; [unfold calculateThermalRadius; lra|].
  split; [exists n; split; [exact Hn|reflexivity]|].
  intros h Hh. destruct ocean; [|discriminate Hh].
  injection Hh as <-.
  unfold calculateTsunamiHeight, Math_min.
  assert (Hmin : 10 <= Rmin (c * 1000 / 10) (4000 * 0.5))
    by (apply Rmin_glb; lra).
  set (m := Rmin (c * 1000 / 10) (4000 * 0.5)) in *.
  assert (0 < m * Math_pow E 0.25) by (apply Rmult_lt_0_compat; lra).
  lra.
Qed.

Lemma calculateImpact_physical_input_ranges_witness :
  0.001 <= AsteroidData.diameter mid_pacific <= 1e9 /\
  0.001 <= AsteroidData.velocity mid_pacific <= 299792.458 /\
  0 < AsteroidData.angle mid_pacific <= 90 /\
  uniform (constant_source 0.5) /\
  exists r s',
    calculateImpact mid_pacific (constant_source 0.5) = (Returned r, s') /\
    0 < ImpactResults.mass r /\
    0 < ImpactResults.energy r /\
    0.1 <= ImpactResults.craterDiameter r /\
    0.025 <= ImpactResults.craterDepth r /\
    0 < ImpactResults.shockwaveRadius r /\
    0 < ImpactResults.thermalRadius r /\
    (exists n : Z, (0 <= n)%Z /\ ImpactResults.affectedPopulation r = IZR n) /\
    (forall h, ImpactResults.tsunamiHeight r = Some h -> 0 < h).
Proof.
  assert (Hd : 0.001 <= AsteroidData.diameter mid_pacific <= 1e9)
    by (unfold mid_pacific; simpl; lra).
  assert (Hv : 0.001 <= AsteroidData.velocity mid_pacific <= 299792.458)
    by (unfold mid_pacific; simpl; lra).
  assert (Ha : 0 < AsteroidData.angle mid_pacific <= 90)
    by (unfold mid_pacific; simpl; lra).
  assert (Hs : uniform (constant_source 0.5))
    by (apply constant_source_uniform; lra).
  split; [exact Hd|]. split; [exact Hv|]. split; [exact Ha|]. split; [exact Hs|].
  exact (calculateImpact_physical_input_ranges mid_pacific (constant_source 0.5)
           Hd Hv Ha Hs).
Defined.

(** X25: mass, energy, both radii and the seismic magnitude of the record
    depend on the diameter and the velocity alone: two calls that agree on
    these two agree on the five fields, whatever their angles, coordinates
    and random sources. *)
Theorem calculateImpact_energy_fields_independent
    (d v a1 lat1 lon1 a2 lat2 lon2 : number) (s1 s2 : RandomSource) :
  exists r1 s1' r2 s2',
    calculateImpact (AsteroidData.mk d v a1 lat1 lon1) s1 = (Returned r1, s1') /\
    calculateImpact (AsteroidData.mk d v a2 lat2 lon2) s2 = (Returned r2, s2') /\
    ImpactResults.mass r1 = ImpactResults.mass r2 /\
    ImpactResults.energy r1 = ImpactResults.energy r2 /\
    ImpactResults.shockwaveRadius r1 = ImpactResults.shockwaveRadius r2 /\
    ImpactResults.thermalRadius r1 = ImpactResults.thermalRadius r2 /\
    ImpactResults.seismicMagnitude r1 = ImpactResults.seismicMagnitude r2.
Proof.
  destruct (calculateImpact_run (AsteroidData.mk d v a1 lat1 lon1) s1)
    as [p1 H1].
  destruct (calculateImpact_run (AsteroidData.mk d v a2 lat2 lon2) s2)
    as [p2 H2].
  cbv zeta in H1, H2. rewrite H1, H2.
  do 4 eexists. repeat split; reflexivity.
Qed.

(** X26: at an impact point inside an ocean box the random source only
    reaches the affected population: two calls on the same input with
    different sources both return ocean impacts with a tsunami height, and
    the second record is the first with its [affectedPopulation] replaced. *)
Theorem calculateImpact_in_box_source_independent
    (data : AsteroidData.t) (s1 s2 : RandomSource) :
  inOceanBox (AsteroidData.impactLat data) (AsteroidData.impactLon data) = true ->
  exists r1 s1' r2 s2',
    calculateImpact data s1 = (Returned r1, s1') /\
    calculateImpact data s2 = (Returned r2, s2') /\
    ImpactResults.isOceanImpact r1 = true /\
    ImpactResults.tsunamiHeight r1 <> None /\
    r2 = ImpactResults.mk
           (ImpactResults.mass r1) (ImpactResults.energy r1)
           (ImpactResults.craterDiameter r1) (ImpactResults.craterDepth r1)
           (ImpactResults.shockwaveRadius r1) (ImpactResults.seismicMagnitude r1)
           (ImpactResults.thermalRadius r1) (ImpactResults.isOceanImpact r1)
           (ImpactResults.tsunamiHeight r1) (ImpactResults.affectedPopulation r2).
Proof.
  intros Hbox.
  destruct (calculateImpact_run data s1) as [p1 H1].
  destruct (calculateImpact_run data s2) as [p2 H2].
  cbv zeta in H1, H2. unfold oceanDecision in H1, H2.
  rewrite Hbox in H1, H2. rewrite H1, H2.
  do 4 eexists. simpl. repeat split; try reflexivity. discriminate.
Qed.

Lemma calculateImpact_in_box_source_independent_witness :
  inOceanBox (AsteroidData.impactLat mid_pacific)
             (AsteroidData.impactLon mid_pacific) = true /\
  exists r1 s1' r2 s2',
    calculateImpact mid_pacific (constant_source 0.1) = (Returned r1, s1') /\
    calculateImpact mid_pacific (constant_source 0.9) = (Returned r2, s2') /\
    ImpactResults.isOceanImpact r1 = true /\
    ImpactResults.tsunamiHeight r1 <> None /\
    r2 = ImpactResults.mk
           (ImpactResults.mass r1) (ImpactResults.energy r1)
           (ImpactResults.craterDiameter r1) (ImpactResults.craterDepth r1)
           (ImpactResults.shockwaveRadius r1) (ImpactResults.seismicMagnitude r1)
           (ImpactResults.thermalRadius r1) (ImpactResults.isOceanImpact r1)
           (ImpactResults.tsunamiHeight r1) (ImpactResults.affectedPopulation r2).
Proof.
  assert (H : inOceanBox (AsteroidData.impactLat mid_pacific)
                         (AsteroidData.impactLon mid_pacific) = true).
  { unfold inOceanBox. rewrite !orb_true_iff, pacificBox_true. left; left.
    unfold mid_pacific; simpl. rewrite Rabs_R0. split; [left|]; lra. }
  split; [exact H|].
  exact (calculateImpact_in_box_source_independent mid_pacific
           (constant_source 0.1) (constant_source 0.9) H).
Defined.
